(** * Product controller (backend/controllers/product.js)

    A shallow embedding of the five request handlers of the product
    controller: [createProduct], [getAllProducts], [getProductById],
    [updateProductById] and [deleteProductById].

    The handlers are written as programs over the calls they make to their
    collaborators (the [Product] model, [uuidv4()] and [new Date()]); a
    runtime interprets those calls.  Statements about what a handler hands
    to the store hold for every runtime; statements about what ends up in
    the store are made for the in-memory store of module [MemoryStore]. *)

From Stdlib Require Import ZArith Ascii String List.
From stdpp Require Import base decidable option list sorting strings pretty gmap fin_maps.

Open Scope string_scope.

(** ** JavaScript values

    The values that occur in a product record: text, [null], [undefined]
    and timestamps.  Request fields are text, as the multipart and
    url-encoded body parsers deliver them. *)

Inductive JsVal : Type :=
| VUndefined
| VNull
| VStr (s : string)
| VDate (t : Z).

#[global] Instance JsVal_eq_dec : EqDecision JsVal.
Proof. solve_decision. Defined.

(** JavaScript truthiness: [undefined], [null] and the empty string are
    falsy, every other value here is truthy. *)
Definition truthy (v : JsVal) : bool :=
  match v with
  | VUndefined | VNull => false
  | VStr s => negb (String.eqb s "")
  | VDate _ => true
  end.

(** [a || b] *)
Definition js_or (a b : JsVal) : JsVal := if truthy a then a else b.

(** ** Strings *)

Definition is_upper (c : ascii) : bool :=
  let n := N_of_ascii c in ((65 <=? n) && (n <=? 90))%N.

Definition lower_ascii (c : ascii) : ascii :=
  if is_upper c then ascii_of_N (N_of_ascii c + 32) else c.

(** [String.prototype.toLowerCase], on the ASCII letters. *)
Fixpoint toLowerCase (s : string) : string :=
  match s with
  | EmptyString => EmptyString
  | String c r => String (lower_ascii c) (toLowerCase r)
  end.

Definition is_digit (c : ascii) : bool :=
  let n := N_of_ascii c in ((48 <=? n) && (n <=? 57))%N.

(** [/^[0-9]+$/] *)
Fixpoint all_digits (s : string) : bool :=
  match s with
  | EmptyString => true
  | String c r => is_digit c && all_digits r
  end.

Definition digits1 (s : string) : bool :=
  match s with
  | EmptyString => false
  | String _ _ => all_digits s
  end.

(** The rest of [s] after its leading digits. *)
Fixpoint skip_digits (s : string) : string :=
  match s with
  | EmptyString => EmptyString
  | String c r => if is_digit c then skip_digits r else s
  end.

(** [/^([0-9]*[.])?[0-9]+$/] *)
Definition unsigned_numeric (s : string) : bool :=
  digits1 s ||
  match skip_digits s with
  | String "."%char r => digits1 r
  | _ => false
  end.

(** validator.js [isNumeric], default options:
    [/^[+-]?([0-9]*[.])?[0-9]+$/]. *)
Definition isNumeric (s : string) : bool :=
  match s with
  | String "+"%char r | String "-"%char r => unsigned_numeric r
  | _ => unsigned_numeric s
  end.

(** validator.js [isEmpty], default options: the string has length 0. *)
Definition isEmpty (s : string) : bool := String.eqb s "".

(** ** Field validation (express-validator) *)

Inductive Validator : Type := NotEmpty | IsNumeric.

(** One [body(field)...withMessage(message)] chain. *)
Record Chain : Type := mkChain {
  chain_field : string;
  chain_optional : bool;
  chain_validator : Validator;
  chain_message : string
}.

Record ValidationError : Type := mkError {
  err_value : JsVal;
  err_msg : string;
  err_param : string;
  err_location : string
}.

(** The validators work on the string form of the field; an absent field
    reads as [undefined], whose string form is empty. *)
Definition field_value (o : option string) : JsVal :=
  match o with Some s => VStr s | None => VUndefined end.

Definition field_string (o : option string) : string :=
  match o with Some s => s | None => "" end.

Definition passes (v : Validator) (s : string) : bool :=
  match v with
  | NotEmpty => negb (isEmpty s)
  | IsNumeric => isNumeric s
  end.

Definition run_chain (body : gmap string string) (c : Chain)
  : list ValidationError :=
  let o := body !! chain_field c in
  match o, chain_optional c with
  | None, true => []
  | _, _ =>
      if passes (chain_validator c) (field_string o) then []
      else [mkError (field_value o) (chain_message c) (chain_field c) "body"]
  end.

(** [validationResult(req).array()] after the chains have run, in the
    order of the chains. *)
Definition validationResult (chains : list Chain) (body : gmap string string)
  : list ValidationError :=
  flat_map (run_chain body) chains.

(** Lines 22-23. *)
Definition createRules : list Chain :=
  [ mkChain "name" false NotEmpty "Nome é obrigatório";
    mkChain "price" false IsNumeric "O preço deve ser numérico" ].

(** Lines 95-96. *)
Definition updateRules : list Chain :=
  [ mkChain "name" true NotEmpty "Nome não pode estar vazio";
    mkChain "price" true IsNumeric "O preço deve ser numérico" ].

(** ** Requests, records and responses *)

(** A product as the store hands it back: the persisted fields and the
    bookkeeping timestamps the store maintains. *)
Record Product : Type := mkProduct {
  data : gmap string JsVal;
  createdAt : Z;
  updatedAt : Z
}.

(** [req.file] as the upload middleware leaves it; only [filename] is read. *)
Record File : Type := mkFile { filename : JsVal }.

Record Request : Type := mkRequest {
  body : gmap string string;
  file : option File;
  cloudinaryUrl : JsVal;
  params_id : string
}.

Inductive Payload : Type :=
| JsonErrors (errors : list ValidationError)   (* [{ errors: [...] }] *)
| JsonProduct (p : Product)
| JsonProducts (ps : list Product)
| JsonError (message : string)                 (* [{ error: message }] *)
| Text (message : string).

Record Response : Type := mkResponse { status : nat; payload : Payload }.

(** What a handler ends with: a response, or an exception that escapes it. *)
Inductive Outcome : Type :=
| Sent (r : Response)
| Unhandled (e : string).

Definition status_of (o : Outcome) : option nat :=
  match o with Sent r => Some (status r) | Unhandled _ => None end.

(** ** Handlers as programs over their collaborators *)

Inductive Result (A : Type) : Type :=
| Ok (a : A)
| Throw (message : string).
Arguments Ok {A} a.
Arguments Throw {A} message.

Inductive Direction : Type := ASC | DESC.

Inductive Prog (A : Type) : Type :=
| Ret (a : A)
| Uuidv4 (k : string -> Prog A)
| NewDate (k : Z -> Prog A)
| ProductCreate (values : gmap string JsVal) (k : Result Product -> Prog A)
| ProductFindAll (order : list (string * Direction))
    (k : Result (list Product) -> Prog A)
| ProductFindOne (id : string) (k : Result (option Product) -> Prog A)
| ProductUpdate (instance : Product) (values : gmap string JsVal)
    (k : Result Product -> Prog A)
| ProductDestroy (id : string) (k : Result nat -> Prog A).
Arguments Ret {A} a.
Arguments Uuidv4 {A} k.
Arguments NewDate {A} k.
Arguments ProductCreate {A} values k.
Arguments ProductFindAll {A} order k.
Arguments ProductFindOne {A} id k.
Arguments ProductUpdate {A} instance values k.
Arguments ProductDestroy {A} id k.

Definition send (code : nat) (p : Payload) : Prog Outcome :=
  Ret (Sent (mkResponse code p)).

(** Line 32: [req.file ? req.file.filename : req.cloudinaryUrl || null]. *)
Definition productImage (req : Request) : JsVal :=
  match file req with
  | Some f => filename f
  | None => js_or (cloudinaryUrl req) VNull
  end.

(** Lines 35-41: the object literal, later keys overriding the spread. *)
Definition transformedData (req : Request) (id name : string) (now : Z)
  : gmap string JsVal :=
  <["expiryDate" := VDate now]>
    (<["productImage" := productImage req]>
      (<["name" := VStr (toLowerCase name)]>
        (<["id" := VStr id]> (VStr <$> body req)))).

(** Lines 25-49.  The object literal is built outside the [try]: reading
    [toLowerCase] off an absent [name] would escape the handler. *)
Definition createProduct (req : Request) : Prog Outcome :=
  let errors := validationResult createRules (body req) in
  match errors with
  | _ :: _ => send 400 (JsonErrors errors)
  | [] =>
      Uuidv4 (fun id =>
        match body req !! "name" with
        | None => Ret (Unhandled "TypeError")
        | Some name =>
            NewDate (fun now =>
              ProductCreate (transformedData req id name now) (fun r =>
                match r with
                | Ok product => send 201 (JsonProduct product)
                | Throw m => send 500 (JsonError m)
                end))
        end)
  end.

(** Lines 58-65. *)
Definition getAllProducts : Prog Outcome :=
  ProductFindAll [("createdAt", DESC)] (fun r =>
    match r with
    | Ok products => send 200 (JsonProducts products)
    | Throw m => send 500 (Text m)
    end).

(** Lines 73-86. *)
Definition getProductById (req : Request) : Prog Outcome :=
  ProductFindOne (params_id req) (fun r =>
    match r with
    | Ok (Some product) => send 200 (JsonProduct product)
    | Ok None => send 404 (Text "Product with the specified ID does not exist")
    | Throw m => send 500 (Text m)
    end).

(** Lines 113-116: [req.body] with [name] lower-cased when it is truthy. *)
Definition updatedData (b : gmap string string) : gmap string string :=
  match b !! "name" with
  | Some name =>
      if truthy (VStr name) then <["name" := toLowerCase name]> b else b
  | None => b
  end.

(** Lines 98-123.  [product.update] changes the instance in place; the
    program receives the changed instance as the answer of the call and
    sends it. *)
Definition updateProductById (req : Request) : Prog Outcome :=
  let errors := validationResult updateRules (body req) in
  match errors with
  | _ :: _ => send 400 (JsonErrors errors)
  | [] =>
      ProductFindOne (params_id req) (fun r =>
        match r with
        | Throw m => send 500 (Text m)
        | Ok None => send 404 (Text "Product not found")
        | Ok (Some product) =>
            ProductUpdate product (VStr <$> updatedData (body req)) (fun r' =>
              match r' with
              | Ok product' => send 200 (JsonProduct product')
              | Throw m => send 500 (Text m)
              end)
        end)
  end.

(** Lines 132-147. *)
Definition deleteProductById (req : Request) : Prog Outcome :=
  ProductDestroy (params_id req) (fun r =>
    match r with
    | Ok deletedProduct =>
        match deletedProduct with
        | S _ => send 204 (Text "Product deleted successfully")
        | O => send 500 (Text "Product not found")
        end
    | Throw m => send 500 (Text m)
    end).

(** ** Running a handler *)

(** What the collaborators answer, over a world [W] they may change. *)
Record Runtime (W : Type) : Type := mkRuntime {
  rt_uuidv4 : W -> string * W;
  rt_newDate : W -> Z * W;
  rt_create : gmap string JsVal -> W -> Result Product * W;
  rt_findAll : list (string * Direction) -> W -> Result (list Product) * W;
  rt_findOne : string -> W -> Result (option Product) * W;
  rt_update : Product -> gmap string JsVal -> W -> Result Product * W;
  rt_destroy : string -> W -> Result nat * W
}.
Arguments rt_uuidv4 {W} _ _.
Arguments rt_newDate {W} _ _.
Arguments rt_create {W} _ _ _.
Arguments rt_findAll {W} _ _ _.
Arguments rt_findOne {W} _ _ _.
Arguments rt_update {W} _ _ _ _.
Arguments rt_destroy {W} _ _ _.

(** The calls a run makes, in order. *)
Inductive Call : Type :=
| CUuidv4 (id : string)
| CNewDate (now : Z)
| CCreate (values : gmap string JsVal)
| CFindAll (order : list (string * Direction))
| CFindOne (id : string)
| CUpdate (instance : Product) (values : gmap string JsVal)
| CDestroy (id : string).

Definition is_write (c : Call) : bool :=
  match c with
  | CCreate _ | CUpdate _ _ | CDestroy _ => true
  | _ => false
  end.

Section Run.
Context {W A : Type} (rt : Runtime W).

(** The result of the program, the world it leaves and its calls. *)
Fixpoint run (p : Prog A) (w : W) : A * W * list Call :=
  match p with
  | Ret a => (a, w, [])
  | Uuidv4 k =>
      let '(id, w1) := rt_uuidv4 rt w in
      let '(a, w2, cs) := run (k id) w1 in (a, w2, CUuidv4 id :: cs)
  | NewDate k =>
      let '(now, w1) := rt_newDate rt w in
      let '(a, w2, cs) := run (k now) w1 in (a, w2, CNewDate now :: cs)
  | ProductCreate values k =>
      let '(r, w1) := rt_create rt values w in
      let '(a, w2, cs) := run (k r) w1 in (a, w2, CCreate values :: cs)
  | ProductFindAll order k =>
      let '(r, w1) := rt_findAll rt order w in
      let '(a, w2, cs) := run (k r) w1 in (a, w2, CFindAll order :: cs)
  | ProductFindOne id k =>
      let '(r, w1) := rt_findOne rt id w in
      let '(a, w2, cs) := run (k r) w1 in (a, w2, CFindOne id :: cs)
  | ProductUpdate instance values k =>
      let '(r, w1) := rt_update rt instance values w in
      let '(a, w2, cs) := run (k r) w1 in (a, w2, CUpdate instance values :: cs)
  | ProductDestroy id k =>
      let '(r, w1) := rt_destroy rt id w in
      let '(a, w2, cs) := run (k r) w1 in (a, w2, CDestroy id :: cs)
  end.

Definition outcome (p : Prog A) (w : W) : A := (run p w).1.1.
Definition world_after (p : Prog A) (w : W) : W := (run p w).1.2.
Definition calls (p : Prog A) (w : W) : list Call := (run p w).2.
End Run.

Section CreateCalls.
Context {W : Type} (rt : Runtime W).

(** The identifier and the time the runtime answers during a run of
    [createProduct] from [w], and the world the store call starts in. *)
Definition drawn_id (w : W) : string := (rt_uuidv4 rt w).1.
Definition stamped (w : W) : Z := (rt_newDate rt (rt_uuidv4 rt w).2).1.
Definition before_create (w : W) : W := (rt_newDate rt (rt_uuidv4 rt w).2).2.

Definition created_record (req : Request) (name : string) (w : W)
  : gmap string JsVal :=
  transformedData req (drawn_id w) name (stamped w).
End CreateCalls.

Definition with_body (req : Request) (b : gmap string string) : Request :=
  mkRequest b (file req) (cloudinaryUrl req) (params_id req).

(** ** The in-memory store *)

Module MemoryStore.

(** The world of a deployment: the stored products, the clock, and the
    identifiers the generator is going to produce. *)
Record World : Type := mkWorld {
  rows : list Product;
  clock : Z;
  uuids : nat -> string;
  drawn : nat
}.

Definition with_rows (w : World) (l : list Product) : World :=
  mkWorld l (clock w) (uuids w) (drawn w).

(** Time passing between two requests. *)
Definition elapse (dt : Z) (w : World) : World :=
  mkWorld (rows w) (clock w + dt) (uuids w) (drawn w).

Definition mem_uuidv4 (w : World) : string * World :=
  (uuids w (drawn w), mkWorld (rows w) (clock w) (uuids w) (S (drawn w))).

Definition mem_newDate (w : World) : Z * World := (clock w, w).

Definition id_of (p : Product) : option JsVal := data p !! "id".

Definition has_id (id : string) (p : Product) : bool :=
  bool_decide (id_of p = Some (VStr id)).

(** Modelled from the spec: the [Product] model of [../models] is not
    part of the sources.  [create] commits the record it is given, with
    all its fields, and the store stamps the bookkeeping timestamps. *)
Definition mem_create (values : gmap string JsVal) (w : World)
  : Result Product * World :=
  let p := mkProduct values (clock w) (clock w) in
  (Ok p, with_rows w (rows w ++ [p])).

Definition column (c : string) : option (Product -> Z) :=
  if String.eqb c "createdAt" then Some createdAt
  else if String.eqb c "updatedAt" then Some updatedAt
  else None.

Definition ordered_by (key : Product -> Z) (d : Direction) (p q : Product)
  : Prop :=
  match d with
  | ASC => (key p <= key q)%Z
  | DESC => (key q <= key p)%Z
  end.

#[global] Instance ordered_by_dec key d p q : Decision (ordered_by key d p q).
Proof. destruct d; simpl; apply _. Defined.

(** Modelled from the spec: [findAll] of the missing [Product] model
    returns every stored product, ordered by the requested bookkeeping
    timestamp in the requested direction. *)
Definition mem_findAll (order : list (string * Direction)) (w : World)
  : Result (list Product) * World :=
  match order with
  | [] => (Ok (rows w), w)
  | [(c, d)] =>
      match column c with
      | Some key => (Ok (merge_sort (ordered_by key d) (rows w)), w)
      | None => (Throw ("Unknown column " ++ c), w)
      end
  | _ => (Throw "Unsupported order", w)
  end.

(** Modelled from the spec: [findOne] of the missing [Product] model
    finds the stored product with the given id, if there is one. *)
Definition mem_findOne (id : string) (w : World)
  : Result (option Product) * World :=
  (Ok (List.find (has_id id) (rows w)), w).

Definition same_row (p q : Product) : bool :=
  bool_decide (id_of q = id_of p).

(** Modelled from the spec: [update] of the missing [Product] model
    replaces the fields present in the payload on the stored record and
    leaves the absent ones untouched; the id is the record's key and is
    immutable, and the store maintains [updatedAt]. *)
Definition mem_update (instance : Product) (values : gmap string JsVal)
  (w : World) : Result Product * World :=
  let p := mkProduct (delete "id" values ∪ data instance)
                     (createdAt instance) (clock w) in
  (Ok p, with_rows w (map (fun q => if same_row instance q then p else q)
                          (rows w))).

(** Modelled from the spec: [destroy] of the missing [Product] model
    deletes the stored products with the given id and answers how many
    rows it affected. *)
Definition mem_destroy (id : string) (w : World) : Result nat * World :=
  let kept := List.filter (fun p => negb (has_id id p)) (rows w) in
  (Ok (length (rows w) - length kept), with_rows w kept).

Definition memory : Runtime World :=
  mkRuntime World mem_uuidv4 mem_newDate
            mem_create mem_findAll mem_findOne mem_update mem_destroy.

(** The same world behind a store that is out of service: every call to
    the model throws [message]. *)
Definition failing (message : string) : Runtime World :=
  mkRuntime World mem_uuidv4 mem_newDate
            (fun _ w => (Throw message, w))
            (fun _ w => (Throw message, w))
            (fun _ w => (Throw message, w))
            (fun _ _ w => (Throw message, w))
            (fun _ w => (Throw message, w)).

(** Is there a stored product with this id? *)
Definition stored (id : string) (w : World) : bool :=
  existsb (has_id id) (rows w).

Definition ids (w : World) : list (option JsVal) := map id_of (rows w).

(** The same world behind a store that answers reads and refuses writes:
    [create], [update] and [destroy] throw [message]. *)
Definition read_only (message : string) : Runtime World :=
  mkRuntime World mem_uuidv4 mem_newDate
            (fun _ w => (Throw message, w))
            mem_findAll mem_findOne
            (fun _ _ w => (Throw message, w))
            (fun _ w => (Throw message, w)).



(** No two stored products share an id. *)
Definition unique_ids (w : World) : Prop := NoDup (ids w).

End MemoryStore.

(** ** Sample requests and worlds *)

Module Samples.
Import MemoryStore.

Definition chair_fields : gmap string string :=
  <["name" := "Chair"]> (<["price" := "49.99"]> ∅).

Definition chair : Request := mkRequest chair_fields None VUndefined "".

(** A client that also submits [id] and [productImage] as plain fields. *)
Definition pushy_chair : Request :=
  with_body chair (<["id" := "mine"]> (<["productImage" := "mine.png"]>
                                         chair_fields)).

(** A request on which both upload paths left a value. *)
Definition chair_with_both : Request :=
  mkRequest chair_fields (Some (mkFile (VStr "chair.png")))
            (VStr "https://res.cloudinary.com/demo/chair.png") "".

Definition chair_in_cloud : Request :=
  mkRequest chair_fields None
            (VStr "https://res.cloudinary.com/demo/chair.png") "".

Definition priceless : Request :=
  mkRequest (<["name" := "Chair"]> (<["price" := "cheap"]> ∅))
            None VUndefined "".

Definition nameless : Request :=
  mkRequest (<["price" := "49.99"]> ∅) None VUndefined "".

Definition empty_world : World :=
  mkWorld [] 1000 (fun n => "p-" ++ pretty n) 0.

(** Three creates, five time units apart. *)
Definition one_chair : World :=
  elapse 5 (world_after memory (createProduct chair) empty_world).
Definition two_chairs : World :=
  elapse 5 (world_after memory (createProduct chair) one_chair).
Definition three_chairs : World :=
  elapse 5 (world_after memory (createProduct chair) two_chairs).

Definition by_id (id : string) : Request := mkRequest ∅ None VUndefined id.

(** The product the first of the three creates stored. *)
Definition first_chair : Product :=
  mkProduct (created_record memory chair "Chair" empty_world) 1000 1000.

Definition rename_to_widget : Request :=
  mkRequest (<["name" := "Widget"]> ∅) None VUndefined "p-0".

Definition rekey : Request :=
  mkRequest (<["id" := "p-1"]> (<["name" := "Widget"]> ∅)) None VUndefined "p-0".

(** A request with no fields at all. *)
Definition blank : Request := mkRequest ∅ None VUndefined "p-0".

(** An update that carries neither [name] nor [price]. *)
Definition repaint : Request :=
  mkRequest (<["color" := "Red"]> ∅) None VUndefined "p-0".

Definition unname : Request :=
  mkRequest (<["name" := ""]> ∅) None VUndefined "p-0".

Definition rename_missing : Request :=
  mkRequest (<["name" := "Widget"]> ∅) None VUndefined "p-7".

End Samples.

(** * Properties *)

(** ** Strings *)

Example toLowerCase_widget : toLowerCase "Widget" = "widget".
Proof. reflexivity. Qed.

Example isNumeric_samples :
  map isNumeric ["49.99"; "7"; ".5"; "+1.5"; "-3"; "1."; ""; "abc"; "1.2.3"; "1e5"]
  = [true; true; true; true; true; false; false; false; false; false].
Proof. reflexivity. Qed.

Lemma toLowerCase_length s : String.length (toLowerCase s) = String.length s.
Proof. induction s as [|c r IH]; simpl; [reflexivity | now rewrite IH]. Qed.



(** ** Validation *)

Lemma isEmpty_true s : isEmpty s = true <-> s = "".
Proof. unfold isEmpty. apply String.eqb_eq. Qed.

Lemma truthy_VStr s : truthy (VStr s) = negb (isEmpty s).
Proof. reflexivity. Qed.

Lemma validation_create b :
  validationResult createRules b =
    ((if negb (isEmpty (field_string (b !! "name"))) then []
      else [mkError (field_value (b !! "name")) "Nome é obrigatório"
                    "name" "body"])
     ++
     (if isNumeric (field_string (b !! "price")) then []
      else [mkError (field_value (b !! "price")) "O preço deve ser numérico"
                    "price" "body"]))%list.
Proof.
  unfold validationResult, createRules, run_chain; simpl.
  rewrite app_nil_r.
  destruct (b !! "name"), (b !! "price"); reflexivity.
Qed.

Lemma create_valid b :
  validationResult createRules b = [] <->
  (exists name, b !! "name" = Some name /\ name <> "") /\
  isNumeric (field_string (b !! "price")) = true.
Proof.
  rewrite validation_create. split.
  - intros H. apply app_eq_nil in H as [Hn Hp]. split.
    + destruct (b !! "name") as [n|]; simpl in Hn.
      * exists n. split; [reflexivity|].
        intros ->. discriminate Hn.
      * discriminate Hn.
    + destruct (isNumeric _); [reflexivity | discriminate Hp].
  - intros [(n & Hn & Hne) Hp]. rewrite Hn, Hp. simpl.
    destruct (isEmpty n) eqn:E; [|reflexivity].
    apply isEmpty_true in E. contradiction.
Qed.

Lemma update_valid b :
  validationResult updateRules b = [] ->
  (forall n, b !! "name" = Some n -> n <> "") /\
  (forall p, b !! "price" = Some p -> isNumeric p = true).
Proof.
  unfold validationResult, updateRules, run_chain; simpl.
  rewrite app_nil_r. intros H. apply app_eq_nil in H as [Hn Hp]. split.
  - intros n E. rewrite E in Hn. simpl in Hn. intros ->. discriminate Hn.
  - intros p E. rewrite E in Hp. simpl in Hp.
    destruct (isNumeric p); [reflexivity | discriminate Hp].
Qed.

(** ** Facts about the in-memory store *)

Module MemoryFacts.
Import MemoryStore.

Lemma has_id_true id p : has_id id p = true <-> id_of p = Some (VStr id).
Proof. unfold has_id. apply bool_decide_eq_true. Qed.

Lemma with_rows_same w : with_rows w (rows w) = w.
Proof. now destruct w. Qed.

Lemma find_stored id l :
  existsb (has_id id) l = true -> exists p, List.find (has_id id) l = Some p.
Proof.
  induction l as [|q l IH]; simpl; [discriminate|].
  destruct (has_id id q); [eauto | exact IH].
Qed.

Lemma find_not_stored id l :
  existsb (has_id id) l = false -> List.find (has_id id) l = None.
Proof.
  induction l as [|q l IH]; simpl; [reflexivity|].
  destruct (has_id id q); [discriminate | exact IH].
Qed.

Lemma find_Some_stored id l p :
  List.find (has_id id) l = Some p -> p ∈ l /\ id_of p = Some (VStr id).
Proof.
  intros H. apply List.find_some in H as [Hin Hid]. split.
  - now apply list_elem_of_In.
  - now apply has_id_true.
Qed.

Lemma stored_true id w :
  stored id w = true <-> exists p, p ∈ rows w /\ id_of p = Some (VStr id).
Proof.
  unfold stored. rewrite existsb_exists. split.
  - intros (p & Hin & Hp). exists p. split.
    + now apply list_elem_of_In.
    + now apply has_id_true.
  - intros (p & Hin & Hp). exists p. split.
    + now apply list_elem_of_In.
    + now apply has_id_true.
Qed.

Lemma kept_when_absent id l :
  existsb (has_id id) l = false ->
  List.filter (fun p => negb (has_id id p)) l = l.
Proof.
  induction l as [|q l IH]; simpl; [reflexivity|].
  destruct (has_id id q); simpl; [discriminate|].
  intros H. now rewrite IH.
Qed.

Lemma kept_length id l :
  length (List.filter (fun p => negb (has_id id p)) l) <= length l.
Proof.
  induction l as [|q l IH]; simpl; [lia|].
  destruct (has_id id q); simpl; lia.
Qed.

Lemma kept_shorter id l :
  existsb (has_id id) l = true ->
  length (List.filter (fun p => negb (has_id id p)) l) < length l.
Proof.
  induction l as [|q l IH]; simpl; [discriminate|].
  destruct (has_id id q); simpl.
  - intros _. pose proof (kept_length id l). lia.
  - intros H. apply IH in H. lia.
Qed.

Lemma kept_not_stored id l :
  existsb (has_id id) (List.filter (fun p => negb (has_id id p)) l) = false.
Proof.
  induction l as [|q l IH]; simpl; [reflexivity|].
  destruct (has_id id q) eqn:E; simpl; [exact IH|].
  now rewrite E.
Qed.

Lemma newest_first_trans : Transitive (ordered_by createdAt DESC).
Proof. intros x y z; unfold ordered_by; lia. Qed.

Lemma newest_first_total : Total (ordered_by createdAt DESC).
Proof. intros x y; unfold ordered_by; lia. Qed.

(** The record that [update] writes keeps the id of the instance. *)
Lemma updated_id values instance :
  (delete "id" values ∪ data instance) !! "id" = data instance !! "id".
Proof. rewrite lookup_union_r; [reflexivity | apply lookup_delete_eq]. Qed.

Lemma replaced_ids instance p l :
  id_of p = id_of instance ->
  map id_of (map (fun q => if same_row instance q then p else q) l)
  = map id_of l.
Proof.
  intros Hp. induction l as [|q l IH]; simpl; [reflexivity|].
  rewrite IH. f_equal. unfold same_row.
  destruct (bool_decide_reflect (id_of q = id_of instance)) as [E|E];
    [congruence | reflexivity].
Qed.

End MemoryFacts.

(** ** [createProduct] on every runtime *)

Section CreateRun.
Context {W : Type} (rt : Runtime W).

Lemma run_create_valid req name w :
  validationResult createRules (body req) = [] ->
  body req !! "name" = Some name ->
  run rt (createProduct req) w =
    (match (rt_create rt (created_record rt req name w) (before_create rt w)).1 with
     | Ok product => Sent (mkResponse 201 (JsonProduct product))
     | Throw m => Sent (mkResponse 500 (JsonError m))
     end,
     (rt_create rt (created_record rt req name w) (before_create rt w)).2,
     [CUuidv4 (drawn_id rt w); CNewDate (stamped rt w);
      CCreate (created_record rt req name w)]).
Proof.
  intros Hv Hn.
  unfold createProduct, created_record, before_create, stamped, drawn_id.
  rewrite Hv. simpl.
  destruct (rt_uuidv4 rt w) as [id w1]. rewrite Hn. simpl.
  destruct (rt_newDate rt w1) as [now w2]. simpl.
  destruct (rt_create rt _ w2) as [[product|m] w3]; reflexivity.
Qed.

Lemma run_create_invalid req w :
  validationResult createRules (body req) <> [] ->
  run rt (createProduct req) w =
    (Sent (mkResponse 400
             (JsonErrors (validationResult createRules (body req)))), w, []).
Proof.
  intros Hv. unfold createProduct.
  destruct (validationResult createRules (body req)); [contradiction|].
  reflexivity.
Qed.
End CreateRun.

Lemma transformedData_id req id name now :
  transformedData req id name now !! "id" = Some (VStr id).
Proof. unfold transformedData. by simplify_map_eq. Qed.


Lemma transformedData_image req id name now :
  transformedData req id name now !! "productImage" = Some (productImage req).
Proof. unfold transformedData. by simplify_map_eq. Qed.


Lemma transformedData_other req id name now k :
  k <> "id" -> k <> "name" -> k <> "productImage" -> k <> "expiryDate" ->
  transformedData req id name now !! k = VStr <$> body req !! k.
Proof.
  intros. unfold transformedData.
  rewrite !lookup_insert_ne by congruence. apply lookup_fmap.
Qed.


Lemma transformedData_body_image req v id name now :
  transformedData (with_body req (<["productImage" := v]> (body req)))
                  id name now
  = transformedData req id name now.
Proof.
  unfold transformedData, with_body, productImage. simpl.
  apply map_eq. intros k.
  destruct (decide (k = "expiryDate")) as [->|]; [by simplify_map_eq|].
  rewrite !(lookup_insert_ne _ "expiryDate") by congruence.
  destruct (decide (k = "productImage")) as [->|]; [by simplify_map_eq|].
  rewrite !(lookup_insert_ne _ "productImage") by congruence.
  destruct (decide (k = "name")) as [->|]; [by simplify_map_eq|].
  rewrite !(lookup_insert_ne _ "name") by congruence.
  destruct (decide (k = "id")) as [->|]; [by simplify_map_eq|].
  rewrite !(lookup_insert_ne _ "id") by congruence.
  rewrite !lookup_fmap. now rewrite lookup_insert_ne by congruence.
Qed.

(** ** Claims on [createProduct] *)

(** C2. A create request whose [name] is missing or empty, or whose
    [price] fails the numeric test, is answered with status 400 and the list
    of validation failures, which names each failing field; the handler is
    then a bare response: on every runtime it makes no call at all, so
    nothing is handed to [Product.create], and the world is left as it was. *)
Theorem create_invalid_rejected (req : Request) :
  body req !! "name" = None \/ body req !! "name" = Some "" \/
  isNumeric (field_string (body req !! "price")) = false ->
  exists errors,
    errors = validationResult createRules (body req) /\
    errors <> [] /\
    (isEmpty (field_string (body req !! "name")) = true ->
     In "name" (map err_param errors)) /\
    (isNumeric (field_string (body req !! "price")) = false ->
     In "price" (map err_param errors)) /\
    createProduct req = send 400 (JsonErrors errors) /\
    forall (W : Type) (rt : Runtime W) (w : W),
      run rt (createProduct req) w =
        (Sent (mkResponse 400 (JsonErrors errors)), w, []).
Proof.
  intros H. exists (validationResult createRules (body req)).
  assert (Hne : validationResult createRules (body req) <> []).
  { intros Hv. apply create_valid in Hv as [(n & Hn & Hnn) Hp].
    destruct H as [H|[H|H]]; congruence. }
  split; [reflexivity|]. split; [exact Hne|].
  split; [|split; [|split]].
  - intros E. rewrite validation_create, E. simpl. now left.
  - intros E. rewrite validation_create, E, map_app. apply in_or_app.
    right. simpl. now left.
  - unfold createProduct.
    destruct (validationResult createRules (body req)); [contradiction|].
    reflexivity.
  - intros W rt w. now apply run_create_invalid.
Qed.

Lemma create_invalid_rejected_witness :
  exists errors,
    errors = validationResult createRules (body Samples.priceless) /\
    errors <> [] /\
    (isEmpty (field_string (body Samples.priceless !! "name")) = true ->
     In "name" (map err_param errors)) /\
    (isNumeric (field_string (body Samples.priceless !! "price")) = false ->
     In "price" (map err_param errors)) /\
    createProduct Samples.priceless = send 400 (JsonErrors errors) /\
    forall (W : Type) (rt : Runtime W) (w : W),
      run rt (createProduct Samples.priceless) w =
        (Sent (mkResponse 400 (JsonErrors errors)), w, []).
Proof.
  apply (create_invalid_rejected Samples.priceless).
  right. right. vm_compute. reflexivity.
Defined.



(** With the in-memory store, and a generator whose next identifier is not
    in use, the created product is stored under an id no other stored
    product has. *)
Lemma create_fresh_in_memory (req : Request) (w : MemoryStore.World) :
  validationResult createRules (body req) = [] ->
  MemoryStore.stored (MemoryStore.uuids w (MemoryStore.drawn w)) w = false ->
  exists p,
    outcome MemoryStore.memory (createProduct req) w =
      Sent (mkResponse 201 (JsonProduct p)) /\
    MemoryStore.rows (world_after MemoryStore.memory (createProduct req) w) =
      (MemoryStore.rows w ++ [p])%list /\
    MemoryStore.id_of p =
      Some (VStr (MemoryStore.uuids w (MemoryStore.drawn w))) /\
    forall q, q ∈ MemoryStore.rows w ->
              MemoryStore.id_of q <> MemoryStore.id_of p.
Proof.
  intros Hv Hfresh. pose proof Hv as Hv'.
  apply create_valid in Hv' as [(name & Hn & _) _].
  unfold outcome, world_after.
  rewrite (run_create_valid MemoryStore.memory req name w Hv Hn). simpl.
  eexists. split; [reflexivity|]. split; [reflexivity|].
  unfold MemoryStore.id_of at 1 3. simpl.
  unfold created_record. rewrite transformedData_id.
  split; [reflexivity|].
  intros q Hq E.
  assert (MemoryStore.stored (MemoryStore.uuids w (MemoryStore.drawn w)) w
          = true) as Ht; [|congruence].
  apply MemoryFacts.stored_true. exists q. split; [exact Hq | exact E].
Qed.

(** C1 fails as stated: with a file on the request and a cloud URL, both
    usable, the record handed to the store carries the file's name, not the
    cloud URL. *)
Lemma create_cloud_url_not_preferred :
  validationResult createRules (body Samples.chair_with_both) = [] /\
  file Samples.chair_with_both = Some (mkFile (VStr "chair.png")) /\
  truthy (cloudinaryUrl Samples.chair_with_both) = true /\
  exists record,
    calls MemoryStore.memory (createProduct Samples.chair_with_both)
          Samples.empty_world =
      [CUuidv4 "p-0"; CNewDate 1000; CCreate record] /\
    record !! "productImage" = Some (VStr "chair.png") /\
    record !! "productImage" <> Some (cloudinaryUrl Samples.chair_with_both).
Proof.
  split; [vm_compute; reflexivity|].
  split; [reflexivity|]. split; [reflexivity|].
  eexists. split; [vm_compute; reflexivity|].
  split; [vm_compute; reflexivity|]. vm_compute. discriminate.
Qed.

(** C1, amended. For a create request that passes validation, the image
    reference on the record handed to the store is resolved in this order:
    the [filename] of the file on the request when there is one, whatever
    the cloud URL; else the cloud URL when it is truthy; else [null]. *)
Theorem create_image_order {W : Type} (rt : Runtime W) (req : Request) (w : W) :
  validationResult createRules (body req) = [] ->
  exists name record,
    body req !! "name" = Some name /\
    calls rt (createProduct req) w =
      [CUuidv4 (drawn_id rt w); CNewDate (stamped rt w); CCreate record] /\
    (forall f, file req = Some f ->
               record !! "productImage" = Some (filename f)) /\
    (file req = None -> truthy (cloudinaryUrl req) = true ->
     record !! "productImage" = Some (cloudinaryUrl req)) /\
    (file req = None -> truthy (cloudinaryUrl req) = false ->
     record !! "productImage" = Some VNull).
Proof.
  intros Hv. pose proof Hv as Hv'.
  apply create_valid in Hv' as [(name & Hn & _) _].
  exists name, (created_record rt req name w).
  unfold calls. rewrite (run_create_valid rt req name w Hv Hn). simpl.
  split; [exact Hn|]. split; [reflexivity|].
  unfold created_record. rewrite transformedData_image.
  unfold productImage, js_or.
  split; [|split].
  - intros f ->. reflexivity.
  - intros -> ->. reflexivity.
  - intros -> ->. reflexivity.
Qed.

Lemma create_image_order_witness :
  exists name record,
    body Samples.chair_in_cloud !! "name" = Some name /\
    calls MemoryStore.memory (createProduct Samples.chair_in_cloud)
          Samples.empty_world =
      [CUuidv4 "p-0"; CNewDate 1000; CCreate record] /\
    (forall f, file Samples.chair_in_cloud = Some f ->
               record !! "productImage" = Some (filename f)) /\
    (file Samples.chair_in_cloud = None ->
     truthy (cloudinaryUrl Samples.chair_in_cloud) = true ->
     record !! "productImage" = Some (cloudinaryUrl Samples.chair_in_cloud)) /\
    (file Samples.chair_in_cloud = None ->
     truthy (cloudinaryUrl Samples.chair_in_cloud) = false ->
     record !! "productImage" = Some VNull).
Proof.
  apply (create_image_order MemoryStore.memory Samples.chair_in_cloud
                            Samples.empty_world).
  vm_compute. reflexivity.
Defined.

(** C8. For a create request that passes validation, with no file on the
    request and no cloud URL, the record handed to the store has
    [productImage] present and equal to [null], and every submitted field
    other than [id], [name], [productImage] and [expiryDate], [price] among
    them, is on the record exactly as it was submitted. *)
Theorem create_without_image {W : Type} (rt : Runtime W) (req : Request) (w : W) :
  validationResult createRules (body req) = [] ->
  file req = None ->
  truthy (cloudinaryUrl req) = false ->
  exists name record,
    body req !! "name" = Some name /\
    calls rt (createProduct req) w =
      [CUuidv4 (drawn_id rt w); CNewDate (stamped rt w); CCreate record] /\
    record !! "productImage" = Some VNull /\
    record !! "price" = VStr <$> body req !! "price" /\
    forall k, k <> "id" -> k <> "name" -> k <> "productImage" ->
              k <> "expiryDate" ->
              record !! k = VStr <$> body req !! k.
Proof.
  intros Hv Hf Hc. pose proof Hv as Hv'.
  apply create_valid in Hv' as [(name & Hn & _) _].
  exists name, (created_record rt req name w).
  unfold calls. rewrite (run_create_valid rt req name w Hv Hn). simpl.
  split; [exact Hn|]. split; [reflexivity|].
  unfold created_record. split; [|split].
  - rewrite transformedData_image. unfold productImage, js_or.
    now rewrite Hf, Hc.
  - now apply transformedData_other.
  - intros k. apply transformedData_other.
Qed.

Lemma create_without_image_witness :
  exists name record,
    body Samples.chair !! "name" = Some name /\
    calls MemoryStore.memory (createProduct Samples.chair)
          Samples.empty_world =
      [CUuidv4 "p-0"; CNewDate 1000; CCreate record] /\
    record !! "productImage" = Some VNull /\
    record !! "price" = VStr <$> body Samples.chair !! "price" /\
    forall k, k <> "id" -> k <> "name" -> k <> "productImage" ->
              k <> "expiryDate" ->
              record !! k = VStr <$> body Samples.chair !! k.
Proof.
  apply (create_without_image MemoryStore.memory Samples.chair
                              Samples.empty_world).
  - vm_compute. reflexivity.
  - reflexivity.
  - reflexivity.
Defined.

(** The example of the specification: [{name: "Chair", price: "49.99"}] and
    no file. *)
Example create_chair :
  exists p,
    outcome MemoryStore.memory (createProduct Samples.chair)
            Samples.empty_world = Sent (mkResponse 201 (JsonProduct p)) /\
    map_to_list (data p) =
      [("expiryDate", VDate 1000); ("id", VStr "p-0"); ("name", VStr "chair");
       ("productImage", VNull); ("price", VStr "49.99")].
Proof. eexists. split; vm_compute; reflexivity. Qed.

(** C10. For a create request that passes validation, the [productImage] of
    the record handed to the store is the reference resolved from the
    request's file and cloud URL (the file's name, the cloud URL or [null]);
    whatever the client submits as a [productImage] field reaches neither
    that reference nor any other part of the record, while the other
    submitted fields are on the record as they were submitted. *)
Theorem create_image_overrides_body {W : Type} (rt : Runtime W)
    (req : Request) (w : W) :
  validationResult createRules (body req) = [] ->
  exists name record,
    body req !! "name" = Some name /\
    calls rt (createProduct req) w =
      [CUuidv4 (drawn_id rt w); CNewDate (stamped rt w); CCreate record] /\
    record !! "productImage" = Some (productImage req) /\
    match file req with
    | Some f => productImage req = filename f
    | None => productImage req = cloudinaryUrl req \/ productImage req = VNull
    end /\
    (forall v : string,
        calls rt (createProduct
                    (with_body req (<["productImage" := v]> (body req)))) w =
        [CUuidv4 (drawn_id rt w); CNewDate (stamped rt w); CCreate record]) /\
    forall k, k <> "id" -> k <> "name" -> k <> "productImage" ->
              k <> "expiryDate" ->
              record !! k = VStr <$> body req !! k.
Proof.
  intros Hv. pose proof Hv as Hv'.
  apply create_valid in Hv' as [(name & Hn & Hne) Hp].
  exists name, (created_record rt req name w).
  unfold calls. rewrite (run_create_valid rt req name w Hv Hn). simpl.
  split; [exact Hn|]. split; [reflexivity|].
  unfold created_record.
  split; [apply transformedData_image|]. split; [|split].
  - unfold productImage, js_or. destruct (file req); [reflexivity|].
    destruct (truthy (cloudinaryUrl req)); [now left | now right].
  - intros v.
    set (req' := with_body req (<["productImage" := v]> (body req))).
    assert (Hn' : body req' !! "name" = Some name).
    { unfold req'. simpl. now rewrite lookup_insert_ne. }
    assert (Hv'' : validationResult createRules (body req') = []).
    { apply create_valid. split.
      - exists name. split; [exact Hn' | exact Hne].
      - unfold req'. simpl. now rewrite lookup_insert_ne. }
    rewrite (run_create_valid rt req' name w Hv'' Hn').
    unfold created_record, req'. rewrite transformedData_body_image.
    reflexivity.
  - intros k. apply transformedData_other.
Qed.

Lemma create_image_overrides_body_witness :
  exists name record,
    body Samples.pushy_chair !! "name" = Some name /\
    calls MemoryStore.memory (createProduct Samples.pushy_chair)
          Samples.empty_world =
      [CUuidv4 "p-0"; CNewDate 1000; CCreate record] /\
    record !! "productImage" = Some VNull /\
    match file Samples.pushy_chair with
    | Some f => productImage Samples.pushy_chair = filename f
    | None => productImage Samples.pushy_chair = cloudinaryUrl Samples.pushy_chair
              \/ productImage Samples.pushy_chair = VNull
    end /\
    (forall v : string,
        calls MemoryStore.memory
              (createProduct
                 (with_body Samples.pushy_chair
                            (<["productImage" := v]> (body Samples.pushy_chair))))
              Samples.empty_world =
        [CUuidv4 "p-0"; CNewDate 1000; CCreate record]) /\
    forall k, k <> "id" -> k <> "name" -> k <> "productImage" ->
              k <> "expiryDate" ->
              record !! k = VStr <$> body Samples.pushy_chair !! k.
Proof.
  apply (create_image_overrides_body MemoryStore.memory Samples.pushy_chair
                                     Samples.empty_world).
  vm_compute. reflexivity.
Defined.

(** ** Claims on the read and delete handlers *)

Section ReadDelete.
Import MemoryStore MemoryFacts.

(** C6. [getProductById] on the in-memory store: for an id no stored
  product has, the answer is status 404 with the not-found text (and so
  not status 500); for an id a stored product has, the answer is status
  200 carrying that stored product.  On every runtime, a [findOne] that
  finds nothing is answered with 404. *)
Theorem get_by_id (req : Request) (w : World) :
(stored (params_id req) w = false ->
 run memory (getProductById req) w =
   (Sent (mkResponse 404
            (Text "Product with the specified ID does not exist")),
    w, [CFindOne (params_id req)]) /\
 status_of (outcome memory (getProductById req) w) <> Some 500) /\
(stored (params_id req) w = true ->
 exists product,
   product ∈ rows w /\ id_of product = Some (VStr (params_id req)) /\
   run memory (getProductById req) w =
     (Sent (mkResponse 200 (JsonProduct product)), w,
      [CFindOne (params_id req)])) /\
(forall (W : Type) (rt : Runtime W) (w0 : W),
    (rt_findOne rt (params_id req) w0).1 = Ok None ->
    outcome rt (getProductById req) w0 =
      Sent (mkResponse 404
              (Text "Product with the specified ID does not exist"))).
Proof.
split; [|split].
- intros H. apply find_not_stored in H.
  unfold outcome, getProductById. simpl. rewrite H. simpl.
  split; [reflexivity | discriminate].
- intros H. apply find_stored in H as [product Hf].
  exists product. pose proof (find_Some_stored _ _ _ Hf) as [Hin Hid].
  split; [exact Hin|]. split; [exact Hid|].
  unfold getProductById. simpl. rewrite Hf. reflexivity.
- intros W rt w0. unfold outcome, getProductById. simpl.
  destruct (rt_findOne rt (params_id req) w0) as [r w1]. simpl.
  intros ->. reflexivity.
Qed.

Lemma get_by_id_witness :
(run memory (getProductById (Samples.by_id "p-7")) Samples.three_chairs =
   (Sent (mkResponse 404
            (Text "Product with the specified ID does not exist")),
    Samples.three_chairs, [CFindOne "p-7"]) /\
 status_of (outcome memory (getProductById (Samples.by_id "p-7"))
                    Samples.three_chairs) <> Some 500) /\
(exists product,
   product ∈ rows Samples.three_chairs /\
   id_of product = Some (VStr "p-1") /\
   run memory (getProductById (Samples.by_id "p-1")) Samples.three_chairs =
     (Sent (mkResponse 200 (JsonProduct product)), Samples.three_chairs,
      [CFindOne "p-1"])) /\
outcome (failing "down") (getProductById (Samples.by_id "p-1"))
        Samples.three_chairs
= Sent (mkResponse 500 (Text "down")).
Proof.
split; [|split].
- apply (get_by_id (Samples.by_id "p-7") Samples.three_chairs).
  vm_compute. reflexivity.
- apply (get_by_id (Samples.by_id "p-1") Samples.three_chairs).
  vm_compute. reflexivity.
- reflexivity.
Defined.

(** C7. [deleteProductById] on the in-memory store: for an id no stored
  product has, the answer is status 500 with the text of the error (not
  404) and the store is left as it was; for an id a stored product has,
  the answer is status 204 and no product with that id remains.  On every
  runtime, a [destroy] that affected at least one row is answered with
  204, and one that affected none with 500. *)
Theorem delete_by_id (req : Request) (w : World) :
(stored (params_id req) w = false ->
 run memory (deleteProductById req) w =
   (Sent (mkResponse 500 (Text "Product not found")), w,
    [CDestroy (params_id req)])) /\
(stored (params_id req) w = true ->
 outcome memory (deleteProductById req) w =
   Sent (mkResponse 204 (Text "Product deleted successfully")) /\
 stored (params_id req)
        (world_after memory (deleteProductById req) w) = false) /\
(forall (W : Type) (rt : Runtime W) (w0 : W) (n : nat),
    (rt_destroy rt (params_id req) w0).1 = Ok n ->
    outcome rt (deleteProductById req) w0 =
      if decide (1 <= n)
      then Sent (mkResponse 204 (Text "Product deleted successfully"))
      else Sent (mkResponse 500 (Text "Product not found"))).
Proof.
split; [|split].
- intros H. unfold deleteProductById. simpl.
  rewrite (kept_when_absent _ _ H), Nat.sub_diag, with_rows_same.
  reflexivity.
- intros H. unfold outcome, world_after, deleteProductById. simpl.
  pose proof (kept_shorter _ _ H) as Hlt.
  destruct (length (rows w) - _) as [|n] eqn:E; [lia|]. simpl.
  split; [reflexivity|]. apply kept_not_stored.
- intros W rt w0 n. unfold outcome, deleteProductById. simpl.
  destruct (rt_destroy rt (params_id req) w0) as [r w1]. simpl.
  intros ->. destruct n; reflexivity.
Qed.

Lemma delete_by_id_witness :
run memory (deleteProductById (Samples.by_id "p-7")) Samples.three_chairs =
  (Sent (mkResponse 500 (Text "Product not found")), Samples.three_chairs,
   [CDestroy "p-7"]) /\
(outcome memory (deleteProductById (Samples.by_id "p-1"))
         Samples.three_chairs =
   Sent (mkResponse 204 (Text "Product deleted successfully")) /\
 stored "p-1" (world_after memory (deleteProductById (Samples.by_id "p-1"))
                           Samples.three_chairs) = false) /\
outcome memory (deleteProductById (Samples.by_id "p-1"))
        Samples.three_chairs =
  Sent (mkResponse 204 (Text "Product deleted successfully")).
Proof.
split; [|split].
- apply (delete_by_id (Samples.by_id "p-7") Samples.three_chairs).
  vm_compute. reflexivity.
- apply (delete_by_id (Samples.by_id "p-1") Samples.three_chairs).
  vm_compute. reflexivity.
- apply (proj2 (proj2 (delete_by_id (Samples.by_id "p-1")
                                    Samples.three_chairs))
           World memory Samples.three_chairs 1).
  vm_compute. reflexivity.
Defined.

(** C9. [getAllProducts] asks [findAll] for the order [createdAt DESC]
    and nothing else; on every runtime it answers status 200 with the
    products [findAll] returns, and status 500 carrying the message of the
    error when [findAll] throws.  On the in-memory store the answer holds
    every stored product (a permutation of the stored rows) in descending
    order of [createdAt]. *)
Theorem list_newest_first (w : World) :
  (exists products,
     run memory getAllProducts w =
       (Sent (mkResponse 200 (JsonProducts products)), w,
        [CFindAll [("createdAt", DESC)]]) /\
     products ≡ₚ rows w /\
     StronglySorted (fun p q => (createdAt q <= createdAt p)%Z) products) /\
  (forall (W : Type) (rt : Runtime W) (w0 : W),
      calls rt getAllProducts w0 = [CFindAll [("createdAt", DESC)]] /\
      outcome rt getAllProducts w0 =
        match (rt_findAll rt [("createdAt", DESC)] w0).1 with
        | Ok products => Sent (mkResponse 200 (JsonProducts products))
        | Throw m => Sent (mkResponse 500 (Text m))
        end).
Proof.
  split.
  - exists (merge_sort (ordered_by createdAt DESC) (rows w)).
    split; [reflexivity|]. split.
    + apply merge_sort_Permutation.
    + apply (@StronglySorted_merge_sort _ (ordered_by createdAt DESC) _
               newest_first_trans newest_first_total).
  - intros W rt w0. unfold calls, outcome, getAllProducts. simpl.
    destruct (rt_findAll rt _ w0) as [[products|m] w1]; simpl;
      split; reflexivity.
Qed.

(** A store that is out of service. *)
Example list_store_down :
  outcome (failing "connection refused") getAllProducts Samples.three_chairs
  = Sent (mkResponse 500 (Text "connection refused")).
Proof. reflexivity. Qed.

(** The example of the specification: three creates, listed newest first. *)
Example list_three_chairs :
exists a b c,
  outcome memory getAllProducts Samples.three_chairs =
    Sent (mkResponse 200 (JsonProducts [a; b; c])) /\
  map id_of [a; b; c] =
    [Some (VStr "p-2"); Some (VStr "p-1"); Some (VStr "p-0")] /\
  map createdAt [a; b; c] = [1010; 1005; 1000]%Z.
Proof. do 3 eexists. repeat split; vm_compute; reflexivity. Qed.

End ReadDelete.

(** ** Claims on [updateProductById] *)

Lemma updatedData_absent b k : b !! k = None -> updatedData b !! k = None.
Proof.
  intros H. unfold updatedData.
  destruct (b !! "name") as [n|] eqn:E; [|exact H].
  destruct (truthy (VStr n)); [|exact H].
  rewrite lookup_insert_ne; [exact H | congruence].
Qed.

Lemma updatedData_name b n :
  n <> "" -> b !! "name" = Some n ->
  updatedData b !! "name" = Some (toLowerCase n).
Proof.
  intros Hne H. unfold updatedData. rewrite H, truthy_VStr.
  destruct (isEmpty n) eqn:E.
  - apply isEmpty_true in E. contradiction.
  - simpl. apply lookup_insert_eq.
Qed.

Lemma updatedData_other b k : k <> "name" -> updatedData b !! k = b !! k.
Proof.
  intros H. unfold updatedData.
  destruct (b !! "name") as [n|]; [|reflexivity].
  destruct (truthy (VStr n)); [|reflexivity].
  now rewrite lookup_insert_ne.
Qed.

Section Update.
Import MemoryStore MemoryFacts.


(** On every runtime: once validation has passed and [findOne] has found
    a product, the handler hands to [update] the found instance and the
    payload with [name] lower-cased, and makes no other call. *)
Lemma update_calls_any_runtime {W : Type} (rt : Runtime W) (req : Request)
    (w : W) (product : Product) :
  validationResult updateRules (body req) = [] ->
  (rt_findOne rt (params_id req) w).1 = Ok (Some product) ->
  calls rt (updateProductById req) w =
    [CFindOne (params_id req);
     CUpdate product (VStr <$> updatedData (body req))].
Proof.
  intros Hv Hf. unfold calls, updateProductById. rewrite Hv. simpl.
  destruct (rt_findOne rt (params_id req) w) as [r w1]. simpl in Hf.
  subst r. simpl.
  destruct (rt_update rt product _ w1) as [[p|m] w2]; reflexivity.
Qed.



(** The examples of the specification: an update that omits [price] leaves
  the price as it was, and [name: "Widget"] is stored as ["widget"]. *)
Example update_widget :
exists p,
  List.find (has_id "p-0")
            (rows (world_after memory
                     (updateProductById Samples.rename_to_widget)
                     Samples.three_chairs)) = Some p /\
  data p !! "name" = Some (VStr "widget") /\
  data p !! "price" = Some (VStr "49.99").
Proof. eexists. repeat split; vm_compute; reflexivity. Qed.

(** C5. On the in-memory store no [updateProductById], whatever its payload
  and whatever it answers, changes the id of any stored product: the ids
  of the stored rows, in order, are the same after as before. *)
Theorem update_keeps_ids (req : Request) (w : World) :
ids (world_after memory (updateProductById req) w) = ids w.
Proof.
unfold world_after, updateProductById.
destruct (validationResult updateRules (body req)); [|reflexivity].
simpl. destruct (List.find (has_id (params_id req)) (rows w)) as [product|];
  [|reflexivity].
simpl. unfold ids. simpl. apply replaced_ids.
unfold id_of. simpl. apply updated_id.
Qed.

(** A payload that carries an [id] of its own: the controller hands it to
  [update] as it is, and the in-memory store keeps the stored id. *)
Example update_with_id_in_payload :
(exists instance values,
   calls memory (updateProductById Samples.rekey) Samples.three_chairs =
     [CFindOne "p-0"; CUpdate instance values] /\
   values !! "id" = Some (VStr "p-1")) /\
ids (world_after memory (updateProductById Samples.rekey)
                 Samples.three_chairs) =
  [Some (VStr "p-0"); Some (VStr "p-1"); Some (VStr "p-2")].
Proof.
split.
- do 2 eexists. split; vm_compute; reflexivity.
- vm_compute. reflexivity.
Qed.

End Update.

(** * Further properties of the handlers *)

(** ** [createProduct] *)


(** X2. When the request passes validation and [Product.create] throws,
    [createProduct] answers status 500 with the JSON object
    [{ error: message }] carrying the message of the error. *)
Theorem create_store_failure {W : Type} (rt : Runtime W) (req : Request)
    (w : W) (name m : string) :
  validationResult createRules (body req) = [] ->
  body req !! "name" = Some name ->
  (rt_create rt (created_record rt req name w) (before_create rt w)).1
    = Throw m ->
  outcome rt (createProduct req) w = Sent (mkResponse 500 (JsonError m)).
Proof.
  intros Hv Hn Ht. unfold outcome.
  rewrite (run_create_valid rt req name w Hv Hn). simpl. now rewrite Ht.
Qed.

Lemma create_store_failure_witness :
  outcome (MemoryStore.failing "SequelizeConnectionError")
          (createProduct Samples.chair) Samples.empty_world
  = Sent (mkResponse 500 (JsonError "SequelizeConnectionError")).
Proof.
  apply (create_store_failure (MemoryStore.failing "SequelizeConnectionError")
           Samples.chair Samples.empty_world "Chair").
  - vm_compute. reflexivity.
  - vm_compute. reflexivity.
  - reflexivity.
Defined.

(** X3. The failure list of a rejected create holds one entry per failing
    field, the one for [name] before the one for [price], each with the
    value submitted ([undefined] for an absent field), the message of its
    rule and the location [body]: two entries when both fields fail, one
    when only one does. *)
Theorem create_failure_list (req : Request) :
  let name_error :=
    mkError (field_value (body req !! "name")) "Nome é obrigatório"
            "name" "body" in
  let price_error :=
    mkError (field_value (body req !! "price")) "O preço deve ser numérico"
            "price" "body" in
  (isEmpty (field_string (body req !! "name")) = true ->
   isNumeric (field_string (body req !! "price")) = false ->
   createProduct req = send 400 (JsonErrors [name_error; price_error])) /\
  (isEmpty (field_string (body req !! "name")) = true ->
   isNumeric (field_string (body req !! "price")) = true ->
   createProduct req = send 400 (JsonErrors [name_error])) /\
  (isEmpty (field_string (body req !! "name")) = false ->
   isNumeric (field_string (body req !! "price")) = false ->
   createProduct req = send 400 (JsonErrors [price_error])).
Proof.
  intros name_error price_error. unfold createProduct.
  rewrite validation_create.
  split; [|split]; intros -> ->; reflexivity.
Qed.

Lemma create_failure_list_witness :
  createProduct Samples.blank =
    send 400 (JsonErrors
                [mkError VUndefined "Nome é obrigatório" "name" "body";
                 mkError VUndefined "O preço deve ser numérico" "price" "body"])
  /\
  createProduct Samples.unname =
    send 400 (JsonErrors
                [mkError (VStr "") "Nome é obrigatório" "name" "body";
                 mkError VUndefined "O preço deve ser numérico" "price" "body"]).
Proof.
  split.
  - apply (create_failure_list Samples.blank); vm_compute; reflexivity.
  - apply (create_failure_list Samples.unname); vm_compute; reflexivity.
Defined.



(** ** [updateProductById] *)

Lemma validation_update b :
  validationResult updateRules b =
    (match b !! "name" with
     | Some n =>
         if negb (isEmpty n) then []
         else [mkError (VStr n) "Nome não pode estar vazio" "name" "body"]
     | None => []
     end
     ++
     match b !! "price" with
     | Some pr =>
         if isNumeric pr then []
         else [mkError (VStr pr) "O preço deve ser numérico" "price" "body"]
     | None => []
     end)%list.
Proof.
  unfold validationResult, updateRules, run_chain; simpl.
  rewrite app_nil_r.
  destruct (b !! "name"), (b !! "price"); reflexivity.
Qed.

Lemma run_update_invalid {W : Type} (rt : Runtime W) (req : Request) (w : W) :
  validationResult updateRules (body req) <> [] ->
  run rt (updateProductById req) w =
    (Sent (mkResponse 400
             (JsonErrors (validationResult updateRules (body req)))), w, []).
Proof.
  intros Hv. unfold updateProductById.
  destruct (validationResult updateRules (body req)); [contradiction|].
  reflexivity.
Qed.

Lemma run_update_valid {W : Type} (rt : Runtime W) (req : Request) (w : W) :
  validationResult updateRules (body req) = [] ->
  run rt (updateProductById req) w =
    match (rt_findOne rt (params_id req) w).1 with
    | Throw m =>
        (Sent (mkResponse 500 (Text m)), (rt_findOne rt (params_id req) w).2,
         [CFindOne (params_id req)])
    | Ok None =>
        (Sent (mkResponse 404 (Text "Product not found")),
         (rt_findOne rt (params_id req) w).2, [CFindOne (params_id req)])
    | Ok (Some product) =>
        let values := VStr <$> updatedData (body req) in
        let r := rt_update rt product values
                           (rt_findOne rt (params_id req) w).2 in
        (match r.1 with
         | Ok product' => Sent (mkResponse 200 (JsonProduct product'))
         | Throw m => Sent (mkResponse 500 (Text m))
         end, r.2, [CFindOne (params_id req); CUpdate product values])
    end.
Proof.
  intros Hv. unfold updateProductById. rewrite Hv. simpl.
  destruct (rt_findOne rt (params_id req) w) as [[[product|]|m] w1]; simpl;
    try reflexivity.
  destruct (rt_update rt product _ w1) as [[p|m] w2]; reflexivity.
Qed.

(** X5. The rules of update are no stricter than those of create: a body
    that passes the validation of [createProduct] passes that of
    [updateProductById]. *)
Theorem create_valid_is_update_valid (b : gmap string string) :
  validationResult createRules b = [] ->
  validationResult updateRules b = [].
Proof.
  intros Hv. apply create_valid in Hv as [(n & Hn & Hne) Hp].
  rewrite validation_update, Hn.
  destruct (isEmpty n) eqn:E; [apply isEmpty_true in E; contradiction|].
  simpl. destruct (b !! "price") as [pr|]; [|reflexivity].
  simpl in Hp. now rewrite Hp.
Qed.

Lemma create_valid_is_update_valid_witness :
  validationResult updateRules Samples.chair_fields = [].
Proof.
  apply (create_valid_is_update_valid Samples.chair_fields).
  vm_compute. reflexivity.
Defined.

(** X6. An update whose [name] is present and empty, or whose [price] is
    present and fails the numeric test, is answered with status 400 and the
    non-empty list of validation failures; on every runtime the handler then
    makes no call ([findOne] is not consulted, nothing is updated). *)
Theorem update_invalid_rejected (req : Request) :
  body req !! "name" = Some "" \/
  (exists pr, body req !! "price" = Some pr /\ isNumeric pr = false) ->
  exists errors,
    errors = validationResult updateRules (body req) /\
    errors <> [] /\
    updateProductById req = send 400 (JsonErrors errors) /\
    forall (W : Type) (rt : Runtime W) (w : W),
      run rt (updateProductById req) w =
        (Sent (mkResponse 400 (JsonErrors errors)), w, []).
Proof.
  intros H. exists (validationResult updateRules (body req)).
  assert (Hne : validationResult updateRules (body req) <> []).
  { intros Hv. apply update_valid in Hv as [Hn Hp].
    destruct H as [H|(pr & Hpr & Hnum)].
    - now apply (Hn "" H).
    - rewrite (Hp pr Hpr) in Hnum. discriminate Hnum. }
  split; [reflexivity|]. split; [exact Hne|]. split.
  - unfold updateProductById.
    destruct (validationResult updateRules (body req)); [contradiction|].
    reflexivity.
  - intros W rt w. now apply run_update_invalid.
Qed.

Lemma update_invalid_rejected_witness :
  exists errors,
    errors = validationResult updateRules (body Samples.unname) /\
    errors <> [] /\
    updateProductById Samples.unname = send 400 (JsonErrors errors) /\
    forall (W : Type) (rt : Runtime W) (w : W),
      run rt (updateProductById Samples.unname) w =
        (Sent (mkResponse 400 (JsonErrors errors)), w, []).
Proof.
  apply (update_invalid_rejected Samples.unname).
  left. vm_compute. reflexivity.
Defined.

(** X7. An update that carries neither [name] nor [price] passes
    validation whatever else it carries, and is handed to the store
    untransformed: on every runtime on which [findOne] finds the product, the
    values given to [update] are the submitted fields as they are. *)
Theorem update_without_name_and_price {W : Type} (rt : Runtime W)
    (req : Request) (w : W) (product : Product) :
  body req !! "name" = None ->
  body req !! "price" = None ->
  (rt_findOne rt (params_id req) w).1 = Ok (Some product) ->
  validationResult updateRules (body req) = [] /\
  calls rt (updateProductById req) w =
    [CFindOne (params_id req); CUpdate product (VStr <$> body req)].
Proof.
  intros Hn Hp Hf.
  assert (Hv : validationResult updateRules (body req) = [])
    by (rewrite validation_update, Hn, Hp; reflexivity).
  split; [exact Hv|].
  unfold calls. rewrite (run_update_valid rt req w Hv), Hf. simpl.
  unfold updatedData. now rewrite Hn.
Qed.

Lemma update_without_name_and_price_witness :
  validationResult updateRules (body Samples.repaint) = [] /\
  calls MemoryStore.memory (updateProductById Samples.repaint)
        Samples.three_chairs =
    [CFindOne "p-0";
     CUpdate Samples.first_chair (VStr <$> body Samples.repaint)].
Proof.
  apply (update_without_name_and_price MemoryStore.memory Samples.repaint
           Samples.three_chairs Samples.first_chair).
  - vm_compute. reflexivity.
  - vm_compute. reflexivity.
  - vm_compute. reflexivity.
Defined.

(** X8. When the payload passes validation and [findOne] finds no product,
    [updateProductById] answers status 404 with the text
    [Product not found], and [findOne] is its only call: [update] is not
    called. *)
Theorem update_not_found {W : Type} (rt : Runtime W) (req : Request) (w : W) :
  validationResult updateRules (body req) = [] ->
  (rt_findOne rt (params_id req) w).1 = Ok None ->
  run rt (updateProductById req) w =
    (Sent (mkResponse 404 (Text "Product not found")),
     (rt_findOne rt (params_id req) w).2, [CFindOne (params_id req)]).
Proof.
  intros Hv Hf. now rewrite (run_update_valid rt req w Hv), Hf.
Qed.

Lemma update_not_found_witness :
  run MemoryStore.memory (updateProductById Samples.rename_missing)
      Samples.three_chairs =
    (Sent (mkResponse 404 (Text "Product not found")),
     Samples.three_chairs, [CFindOne "p-7"]).
Proof.
  apply (update_not_found MemoryStore.memory Samples.rename_missing
                          Samples.three_chairs).
  - vm_compute. reflexivity.
  - vm_compute. reflexivity.
Defined.

(** X9. Store failures during an update are answered with status 500 and
    the message of the error as text: when [findOne] throws ([update] is
    then not called), and when [findOne] finds the product and [update]
    throws. *)
Theorem update_store_failure {W : Type} (rt : Runtime W) (req : Request)
    (w : W) (m : string) :
  validationResult updateRules (body req) = [] ->
  ((rt_findOne rt (params_id req) w).1 = Throw m ->
   outcome rt (updateProductById req) w = Sent (mkResponse 500 (Text m)) /\
   calls rt (updateProductById req) w = [CFindOne (params_id req)]) /\
  (forall product,
      (rt_findOne rt (params_id req) w).1 = Ok (Some product) ->
      (rt_update rt product (VStr <$> updatedData (body req))
                 (rt_findOne rt (params_id req) w).2).1 = Throw m ->
      outcome rt (updateProductById req) w = Sent (mkResponse 500 (Text m))).
Proof.
  intros Hv. unfold outcome, calls. rewrite (run_update_valid rt req w Hv).
  split.
  - intros ->. split; reflexivity.
  - intros product -> Hu. simpl. now rewrite Hu.
Qed.

Lemma update_store_failure_witness :
  (outcome (MemoryStore.failing "timeout")
           (updateProductById Samples.rename_to_widget) Samples.three_chairs
   = Sent (mkResponse 500 (Text "timeout")) /\
   calls (MemoryStore.failing "timeout")
         (updateProductById Samples.rename_to_widget) Samples.three_chairs
   = [CFindOne "p-0"]) /\
  outcome (MemoryStore.read_only "locked")
          (updateProductById Samples.rename_to_widget) Samples.three_chairs
  = Sent (mkResponse 500 (Text "locked")).
Proof.
  split.
  - apply (update_store_failure (MemoryStore.failing "timeout")
             Samples.rename_to_widget Samples.three_chairs "timeout").
    + vm_compute. reflexivity.
    + reflexivity.
  - apply (proj2 (update_store_failure (MemoryStore.read_only "locked")
                    Samples.rename_to_widget Samples.three_chairs "locked"
                    ltac:(vm_compute; reflexivity))
             Samples.first_chair).
    + vm_compute. reflexivity.
    + reflexivity.
Defined.

(** X10. On every runtime and for every request, [updateProductById] ends
    with a response of status 200, 400, 404 or 500, and its calls are none,
    [findOne] alone, or [findOne] followed by one [update]: it never draws an
    identifier, takes a date, creates or destroys. *)
Theorem update_always_responds {W : Type} (rt : Runtime W) (req : Request)
    (w : W) :
  exists r,
    outcome rt (updateProductById req) w = Sent r /\
    (status r = 200 \/ status r = 400 \/ status r = 404 \/ status r = 500) /\
    (calls rt (updateProductById req) w = [] \/
     calls rt (updateProductById req) w = [CFindOne (params_id req)] \/
     exists product,
       calls rt (updateProductById req) w =
         [CFindOne (params_id req);
          CUpdate product (VStr <$> updatedData (body req))]).
Proof.
  unfold outcome, calls.
  destruct (validationResult updateRules (body req)) as [|e es] eqn:Hv.
  - rewrite (run_update_valid rt req w Hv).
    destruct (rt_findOne rt (params_id req) w).1 as [[product|]|m]; simpl.
    + destruct (rt_update rt product _ _).1 as [p|m]; eexists;
        (split; [reflexivity|]); simpl; (split; [tauto|]);
        right; right; eexists; reflexivity.
    + eexists. split; [reflexivity|]. simpl. tauto.
    + eexists. split; [reflexivity|]. simpl. tauto.
  - rewrite (run_update_invalid rt req w) by (rewrite Hv; discriminate).
    eexists. split; [reflexivity|]. simpl. tauto.
Qed.


(** X12. The values handed to [update] keep the stored fields valid: for
    a payload that passes validation, a [name] among them is non-empty text
    and a [price] among them is numeric text. *)
Theorem update_values_valid (b : gmap string string) :
  validationResult updateRules b = [] ->
  (forall n, updatedData b !! "name" = Some n -> n <> "") /\
  (forall pr, updatedData b !! "price" = Some pr -> isNumeric pr = true).
Proof.
  intros Hv. apply update_valid in Hv as [Hn Hp]. split.
  - intros n H. destruct (b !! "name") as [n0|] eqn:E.
    + rewrite (updatedData_name b n0 (Hn n0 eq_refl) E) in H.
      injection H as <-. intros E0. apply (Hn n0 eq_refl).
      apply (f_equal String.length) in E0.
      rewrite toLowerCase_length in E0. destruct n0; [reflexivity|].
      simpl in E0. discriminate E0.
    + now rewrite (updatedData_absent b "name" E) in H.
  - intros pr H. rewrite updatedData_other in H by discriminate.
    now apply Hp.
Qed.

Lemma update_values_valid_witness :
  (forall n, updatedData (body Samples.rename_to_widget) !! "name" = Some n ->
             n <> "") /\
  (forall pr, updatedData (body Samples.rename_to_widget) !! "price" = Some pr ->
              isNumeric pr = true).
Proof.
  apply (update_values_valid (body Samples.rename_to_widget)).
  vm_compute. reflexivity.
Defined.

(** ** The read and delete handlers *)

(** X13. On every runtime the two read handlers make one call each, a
    read: [getProductById] calls [findOne] with the id of the request and
    answers status 200, 404 or 500; [getAllProducts] calls [findAll] and
    answers status 200 or 500; neither makes a call that writes. *)
Theorem read_handlers_shape {W : Type} (rt : Runtime W) (req : Request)
    (w : W) :
  (exists r,
     outcome rt (getProductById req) w = Sent r /\
     (status r = 200 \/ status r = 404 \/ status r = 500) /\
     calls rt (getProductById req) w = [CFindOne (params_id req)]) /\
  (exists r,
     outcome rt getAllProducts w = Sent r /\
     (status r = 200 \/ status r = 500)) /\
  forallb (fun c => negb (is_write c))
          (calls rt (getProductById req) w ++ calls rt getAllProducts w)%list
  = true.
Proof.
  unfold outcome, calls, getProductById, getAllProducts. simpl.
  destruct (rt_findOne rt (params_id req) w) as [[[product|]|m] w1];
    destruct (rt_findAll rt [("createdAt", DESC)] w) as [[products|m'] w2];
    simpl; (split; [|split; [|reflexivity]]); eexists;
    (split; [reflexivity|]); simpl; tauto.
Qed.

(** X14. On every runtime and for every request, [deleteProductById]
    makes exactly one call, [destroy] with the id of the request, and
    answers status 204 or 500: whatever the store does, it never answers
    404. *)
Theorem delete_always_responds {W : Type} (rt : Runtime W) (req : Request)
    (w : W) :
  exists r,
    outcome rt (deleteProductById req) w = Sent r /\
    (status r = 204 \/ status r = 500) /\
    status r <> 404 /\
    calls rt (deleteProductById req) w = [CDestroy (params_id req)].
Proof.
  unfold outcome, calls, deleteProductById. simpl.
  destruct (rt_destroy rt (params_id req) w) as [[[|n]|m] w1]; simpl;
    eexists; (split; [reflexivity|]); simpl;
    (split; [tauto|]); (split; [discriminate | reflexivity]).
Qed.

(** ** The handlers composed, on the in-memory store *)

Section Composed.
Import MemoryStore MemoryFacts.


Lemma has_id_other id id' p : id' <> id -> has_id id p = true -> has_id id' p = false.
Proof.
  intros Hne H. apply has_id_true in H.
  destruct (has_id id' p) eqn:E; [|reflexivity].
  apply has_id_true in E. congruence.
Qed.

Lemma find_appended id l p :
  existsb (has_id id) l = false -> has_id id p = true ->
  List.find (has_id id) (l ++ [p]) = Some p.
Proof.
  intros Hl Hp. induction l as [|q l IH]; simpl.
  - now rewrite Hp.
  - simpl in Hl. destruct (has_id id q); [discriminate|]. now apply IH.
Qed.

Lemma find_kept id id' l :
  id' <> id ->
  List.find (has_id id') (List.filter (fun p => negb (has_id id p)) l)
  = List.find (has_id id') l.
Proof.
  intros Hne. induction l as [|q l IH]; simpl; [reflexivity|].
  destruct (has_id id q) eqn:E; simpl.
  - now rewrite (has_id_other id id' q Hne E).
  - now rewrite IH.
Qed.

Lemma find_replaced_other id id' instance p l :
  id' <> id ->
  id_of instance = Some (VStr id) ->
  id_of p = id_of instance ->
  List.find (has_id id')
            (map (fun q => if same_row instance q then p else q) l)
  = List.find (has_id id') l.
Proof.
  intros Hne Hi Hp. induction l as [|q l IH]; simpl; [reflexivity|].
  assert (Hs : same_row instance q = has_id id q).
  { unfold same_row, has_id. now rewrite Hi. }
  rewrite Hs. destruct (has_id id q) eqn:E.
  - rewrite (has_id_other id id' q Hne E).
    assert (has_id id p = true) as Hpid by (apply has_id_true; congruence).
    now rewrite (has_id_other id id' p Hne Hpid).
  - now rewrite IH.
Qed.

Lemma run_get_memory req w :
  outcome memory (getProductById req) w =
    match List.find (has_id (params_id req)) (rows w) with
    | Some product => Sent (mkResponse 200 (JsonProduct product))
    | None => Sent (mkResponse 404
                      (Text "Product with the specified ID does not exist"))
    end.
Proof.
  unfold outcome, getProductById. simpl.
  destruct (List.find _ _); reflexivity.
Qed.

(** X15. Create, then get: when the request passes validation and the
    identifier the generator draws is not in use, [getProductById] with that
    identifier, run on the store [createProduct] left, answers status 200
    with the very product that [createProduct] answered with status 201. *)
Theorem create_then_get (req req' : Request) (w : World) :
  validationResult createRules (body req) = [] ->
  stored (drawn_id memory w) w = false ->
  params_id req' = drawn_id memory w ->
  exists p,
    outcome memory (createProduct req) w =
      Sent (mkResponse 201 (JsonProduct p)) /\
    outcome memory (getProductById req')
            (world_after memory (createProduct req) w) =
      Sent (mkResponse 200 (JsonProduct p)).
Proof.
  intros Hv Hfresh Hid. pose proof Hv as Hv'.
  apply create_valid in Hv' as [(name & Hn & _) _].
  rewrite run_get_memory. unfold outcome, world_after.
  rewrite (run_create_valid memory req name w Hv Hn). simpl.
  eexists. split; [reflexivity|].
  rewrite find_appended; [reflexivity | rewrite Hid; exact Hfresh |].
  apply has_id_true. unfold id_of. simpl. unfold created_record.
  now rewrite transformedData_id, Hid.
Qed.

Lemma create_then_get_witness :
  exists p,
    outcome memory (createProduct Samples.pushy_chair) Samples.three_chairs =
      Sent (mkResponse 201 (JsonProduct p)) /\
    outcome memory (getProductById (Samples.by_id "p-3"))
            (world_after memory (createProduct Samples.pushy_chair)
                         Samples.three_chairs) =
      Sent (mkResponse 200 (JsonProduct p)).
Proof.
  apply (create_then_get Samples.pushy_chair (Samples.by_id "p-3")
                         Samples.three_chairs).
  - vm_compute. reflexivity.
  - vm_compute. reflexivity.
  - vm_compute. reflexivity.
Defined.

(** X16. Create, then list: after a create that passes validation,
    [getAllProducts] answers status 200 with a list that holds the created
    product and every product stored before, and is one longer than the
    store was. *)
Theorem create_then_list (req : Request) (w : World) :
  validationResult createRules (body req) = [] ->
  exists p products,
    outcome memory (createProduct req) w =
      Sent (mkResponse 201 (JsonProduct p)) /\
    outcome memory getAllProducts (world_after memory (createProduct req) w) =
      Sent (mkResponse 200 (JsonProducts products)) /\
    p ∈ products /\
    (forall q, q ∈ rows w -> q ∈ products) /\
    length products = S (length (rows w)).
Proof.
  intros Hv. pose proof Hv as Hv'.
  apply create_valid in Hv' as [(name & Hn & _) _].
  unfold outcome, world_after.
  rewrite (run_create_valid memory req name w Hv Hn). simpl.
  do 2 eexists. split; [reflexivity|]. split; [reflexivity|].
  pose proof (merge_sort_Permutation (ordered_by createdAt DESC)
    (rows w ++ [mkProduct (created_record memory req name w)
                          (clock w) (clock w)])) as HP.
  split; [|split].
  - rewrite HP. set_solver.
  - intros q Hq. rewrite HP. set_solver.
  - rewrite HP, length_app. simpl. lia.
Qed.

Lemma create_then_list_witness :
  exists p products,
    outcome memory (createProduct Samples.chair) Samples.two_chairs =
      Sent (mkResponse 201 (JsonProduct p)) /\
    outcome memory getAllProducts
            (world_after memory (createProduct Samples.chair)
                         Samples.two_chairs) =
      Sent (mkResponse 200 (JsonProducts products)) /\
    p ∈ products /\
    (forall q, q ∈ rows Samples.two_chairs -> q ∈ products) /\
    length products = S (length (rows Samples.two_chairs)).
Proof.
  apply (create_then_list Samples.chair Samples.two_chairs).
  vm_compute. reflexivity.
Defined.

(** X17. Delete, then get or delete again: on the store a
    [deleteProductById] left, whatever it answered, [getProductById] with
    the same id answers status 404, and a second [deleteProductById] with
    the same id answers status 500 with [Product not found] and changes
    nothing. *)
Theorem delete_then_gone (req : Request) (w : World) :
  outcome memory (getProductById req)
          (world_after memory (deleteProductById req) w) =
    Sent (mkResponse 404
            (Text "Product with the specified ID does not exist")) /\
  run memory (deleteProductById req)
      (world_after memory (deleteProductById req) w) =
    (Sent (mkResponse 500 (Text "Product not found")),
     world_after memory (deleteProductById req) w,
     [CDestroy (params_id req)]).
Proof.
  assert (Hgone : stored (params_id req)
                         (world_after memory (deleteProductById req) w)
                  = false).
  { unfold world_after, deleteProductById. simpl.
    destruct (length (rows w) - _); simpl; apply kept_not_stored. }
  split.
  - rewrite run_get_memory. now rewrite (find_not_stored _ _ Hgone).
  - set (w' := world_after memory (deleteProductById req) w) in *.
    unfold deleteProductById. simpl.
    rewrite (kept_when_absent _ _ Hgone), Nat.sub_diag, with_rows_same.
    reflexivity.
Qed.

(** X18. A delete leaves the other products alone: for a different id,
    [getProductById] answers the same before and after a
    [deleteProductById]. *)
Theorem delete_frame (req req' : Request) (w : World) :
  params_id req' <> params_id req ->
  outcome memory (getProductById req')
          (world_after memory (deleteProductById req) w) =
  outcome memory (getProductById req') w.
Proof.
  intros Hne. rewrite !run_get_memory.
  unfold world_after, deleteProductById. simpl.
  destruct (length (rows w) - _); simpl; now rewrite find_kept.
Qed.

Lemma delete_frame_witness :
  outcome memory (getProductById (Samples.by_id "p-2"))
          (world_after memory (deleteProductById (Samples.by_id "p-1"))
                       Samples.three_chairs) =
  outcome memory (getProductById (Samples.by_id "p-2")) Samples.three_chairs.
Proof.
  apply (delete_frame (Samples.by_id "p-1") (Samples.by_id "p-2")
                      Samples.three_chairs).
  vm_compute. discriminate.
Defined.

(** X19. An update leaves the other products alone and the number of
    stored products as it was: for a different id, [getProductById] answers
    the same before and after any [updateProductById], whatever its payload
    and whatever it answered. *)
Theorem update_frame (req req' : Request) (w : World) :
  params_id req' <> params_id req ->
  outcome memory (getProductById req')
          (world_after memory (updateProductById req) w) =
    outcome memory (getProductById req') w /\
  length (rows (world_after memory (updateProductById req) w)) =
    length (rows w).
Proof.
  intros Hne. rewrite !run_get_memory.
  unfold world_after, updateProductById.
  destruct (validationResult updateRules (body req)); [|split; reflexivity].
  simpl.
  destruct (List.find (has_id (params_id req)) (rows w)) as [product|] eqn:Hf;
    [|split; reflexivity].
  simpl. apply find_Some_stored in Hf as [_ Hi]. split.
  - rewrite (find_replaced_other (params_id req) (params_id req'));
      [reflexivity | exact Hne | exact Hi |].
    unfold id_of. simpl. apply updated_id.
  - apply length_map.
Qed.

Lemma update_frame_witness :
  outcome memory (getProductById (Samples.by_id "p-1"))
          (world_after memory (updateProductById Samples.rename_to_widget)
                       Samples.three_chairs) =
    outcome memory (getProductById (Samples.by_id "p-1"))
            Samples.three_chairs /\
  length (rows (world_after memory (updateProductById Samples.rename_to_widget)
                            Samples.three_chairs)) =
    length (rows Samples.three_chairs).
Proof.
  apply (update_frame Samples.rename_to_widget (Samples.by_id "p-1")
                      Samples.three_chairs).
  vm_compute. discriminate.
Defined.

End Composed.

(** ** Invariants of the stored products *)

Section Invariants.
Import MemoryStore MemoryFacts.







Lemma NoDup_ids_kept (Q : Product -> bool) l :
  NoDup (map id_of l) -> NoDup (map id_of (List.filter Q l)).
Proof.
  induction l as [|x l IH]; simpl; [auto|].
  intros H. apply NoDup_cons in H as [Hx Hl].
  destruct (Q x); simpl; [|auto].
  apply NoDup_cons. split; [|auto].
  intros Hin. apply Hx.
  apply list_elem_of_In in Hin. apply list_elem_of_In.
  apply in_map_iff in Hin as (y & Hy & Hiny).
  apply in_map_iff. exists y. split; [exact Hy|].
  apply filter_In in Hiny. tauto.
Qed.

(** X21. The handlers keep the ids of the stored products distinct: if no
    two stored products share an id, the same holds after any
    [updateProductById] and any [deleteProductById], and after a
    [createProduct] provided the identifier the generator draws is not
    already in use. *)
Theorem ids_stay_unique (req : Request) (w : World) :
  unique_ids w ->
  (stored (drawn_id memory w) w = false ->
   unique_ids (world_after memory (createProduct req) w)) /\
  unique_ids (world_after memory (updateProductById req) w) /\
  unique_ids (world_after memory (deleteProductById req) w).
Proof.
  unfold unique_ids, ids. intros Hw. split; [|split].
  - intros Hfresh. unfold world_after.
    destruct (validationResult createRules (body req)) as [|e es] eqn:Hv.
    + pose proof Hv as Hv'.
      apply create_valid in Hv' as [(name & Hn & _) _].
      rewrite (run_create_valid memory req name w Hv Hn). simpl.
      rewrite map_app. apply NoDup_app. split; [exact Hw|]. split.
      * intros x Hx Hx'. simpl in Hx'. apply list_elem_of_singleton in Hx'.
        subst x. unfold id_of at 1 in Hx. simpl in Hx.
        unfold created_record in Hx. rewrite transformedData_id in Hx.
        apply list_elem_of_In, in_map_iff in Hx as (q & Hq & Hin).
        assert (stored (drawn_id memory w) w = true) as Ht; [|congruence].
        apply stored_true. exists q. split; [|exact Hq].
        now apply list_elem_of_In.
      * simpl. apply NoDup_singleton.
    + rewrite (run_create_invalid memory req w) by (rewrite Hv; discriminate).
      exact Hw.
  - unfold world_after, updateProductById.
    destruct (validationResult updateRules (body req)); [|exact Hw].
    simpl.
    destruct (List.find (has_id (params_id req)) (rows w)) as [product|];
      [|exact Hw].
    simpl. rewrite replaced_ids; [exact Hw|].
    unfold id_of. simpl. apply updated_id.
  - unfold world_after, deleteProductById. simpl.
    destruct (length (rows w) - _); simpl; now apply NoDup_ids_kept.
Qed.

Lemma ids_stay_unique_witness :
  unique_ids (world_after memory (createProduct Samples.pushy_chair)
                          Samples.three_chairs) /\
  unique_ids (world_after memory (updateProductById Samples.rekey)
                          Samples.three_chairs) /\
  unique_ids (world_after memory (deleteProductById (Samples.by_id "p-1"))
                          Samples.three_chairs).
Proof.
  assert (H : unique_ids Samples.three_chairs)
    by (apply (bool_decide_unpack _); vm_compute; exact I).
  split; [|split].
  - apply (ids_stay_unique Samples.pushy_chair Samples.three_chairs H).
    vm_compute. reflexivity.
  - apply (ids_stay_unique Samples.rekey Samples.three_chairs H).
  - apply (ids_stay_unique (Samples.by_id "p-1") Samples.three_chairs H).
Defined.

End Invariants.

(** ** More on payloads and round trips *)

(** X22. The transformation of the update payload neither adds nor drops a
    field, and changes no field other than [name]: unlike [createProduct],
    the update overrides no [id], [productImage] or [expiryDate] the client
    submits. *)
Theorem updatedData_keeps_fields (b : gmap string string) (k : string) :
  (is_Some (updatedData b !! k) <-> is_Some (b !! k)) /\
  (k <> "name" -> updatedData b !! k = b !! k).
Proof.
  split; [|apply updatedData_other].
  destruct (decide (k = "name")) as [->|Hne].
  - unfold updatedData. destruct (b !! "name") as [n|] eqn:E.
    + destruct (truthy (VStr n)).
      * rewrite lookup_insert_eq. split; eauto.
      * now rewrite E.
    + now rewrite E.
  - now rewrite updatedData_other.
Qed.

Lemma updatedData_keeps_fields_witness :
  (is_Some (updatedData (body Samples.rekey) !! "id")
   <-> is_Some (body Samples.rekey !! "id")) /\
  updatedData (body Samples.rekey) !! "id" = body Samples.rekey !! "id".
Proof.
  split.
  - apply (updatedData_keeps_fields (body Samples.rekey) "id").
  - apply (updatedData_keeps_fields (body Samples.rekey) "id"). discriminate.
Defined.

Section RoundTrip.
Import MemoryStore MemoryFacts.

Lemma kept_appended id l p :
  existsb (has_id id) l = false -> has_id id p = true ->
  List.filter (fun q => negb (has_id id q)) (l ++ [p]) = l.
Proof.
  intros Hl Hp. rewrite List.filter_app, (kept_when_absent _ _ Hl). simpl.
  rewrite Hp. simpl. apply app_nil_r.
Qed.

(** X23. Create, then delete: when the request passes validation and the
    identifier the generator draws is not in use, [deleteProductById] with
    that identifier, run on the store [createProduct] left, answers status
    204 and leaves exactly the products that were stored before the
    create. *)
Theorem create_then_delete (req req' : Request) (w : World) :
  validationResult createRules (body req) = [] ->
  stored (drawn_id memory w) w = false ->
  params_id req' = drawn_id memory w ->
  outcome memory (deleteProductById req')
          (world_after memory (createProduct req) w) =
    Sent (mkResponse 204 (Text "Product deleted successfully")) /\
  rows (world_after memory (deleteProductById req')
                    (world_after memory (createProduct req) w)) = rows w.
Proof.
  intros Hv Hfresh Hid. pose proof Hv as Hv'.
  apply create_valid in Hv' as [(name & Hn & _) _].
  unfold outcome, world_after.
  rewrite (run_create_valid memory req name w Hv Hn). simpl.
  assert (Hp : has_id (params_id req')
                 (mkProduct (created_record memory req name w)
                            (clock w) (clock w)) = true).
  { apply has_id_true. unfold id_of. simpl. unfold created_record.
    now rewrite transformedData_id, Hid. }
  rewrite kept_appended; [|rewrite Hid; exact Hfresh | exact Hp].
  rewrite length_app. simpl.
  replace (length (rows w) + 1 - length (rows w)) with 1 by lia.
  split; reflexivity.
Qed.

Lemma create_then_delete_witness :
  outcome memory (deleteProductById (Samples.by_id "p-3"))
          (world_after memory (createProduct Samples.chair)
                       Samples.three_chairs) =
    Sent (mkResponse 204 (Text "Product deleted successfully")) /\
  rows (world_after memory (deleteProductById (Samples.by_id "p-3"))
                    (world_after memory (createProduct Samples.chair)
                                 Samples.three_chairs))
  = rows Samples.three_chairs.
Proof.
  apply (create_then_delete Samples.chair (Samples.by_id "p-3")
                            Samples.three_chairs).
  - vm_compute. reflexivity.
  - vm_compute. reflexivity.
  - vm_compute. reflexivity.
Defined.

End RoundTrip.
